(** * ai-gallery: the gallery's fetch-and-paginate state machine

    A shallow embedding of [src/components/Gallery.js]: the five [useState]
    cells of the [Gallery] component, the callbacks that write them
    ([updateGalleryState], [handleFetchError], [fetchImages],
    [goToPreviousPage], [goToNextPage]), the hooks that decide when a fetch
    is issued ([useCallback], [useEffect]), the render of [Gallery] and
    [Pagination], and [parseUsername] of [ImageItem].

    The component receives whatever the server sent, so response bodies are
    modelled as untyped JavaScript values, and the operators the source
    applies to them ([&&], [>], [/], [+], [-], [===], [Math.ceil],
    [Math.max], [Math.min], [Array.isArray]) follow ECMAScript.

    The definitions come first: JavaScript values, the pattern matcher
    behind [parseUsername], the component.  The lemmas follow, and the
    theorems [C1_...] to [C10_...] settle the ten properties stated of
    the component. *)

From Stdlib Require Import ZArith QArith Qcanon Qround.
From Stdlib Require Import String Ascii List Bool Lia DecimalString.
Import ListNotations.

Set Warnings "-register-all".

Local Open Scope string_scope.
Local Open Scope Z_scope.

(** ** JavaScript values *)

Module Js.

(** Numbers.  A JavaScript number is NaN, an infinity or a finite value.
    Finite values are kept as exact canonical rationals: rounding to
    binary64 and the sign of zero are not modelled (page numbers and row
    counts are integers far below 2^53, where both agree). *)
Inductive number : Type :=
| NaN
| PosInf
| NegInf
| Fin (q : Qc).

Definition of_Z (z : Z) : number := Fin (Q2Qc (inject_Z z)).

Definition is_NaN (x : number) : bool :=
  match x with NaN => true | _ => false end.

(** [x < y] on numbers; false as soon as one side is NaN. *)
Definition num_lt (x y : number) : bool :=
  match x, y with
  | NaN, _ | _, NaN => false
  | PosInf, _ => false
  | _, NegInf => false
  | NegInf, _ => true
  | Fin _, PosInf => true
  | Fin p, Fin q => match (p ?= q)%Qc with Lt => true | _ => false end
  end.

(** Numeric equality as [===] sees it: NaN differs from itself. *)
Definition num_eq (x y : number) : bool :=
  match x, y with
  | PosInf, PosInf | NegInf, NegInf => true
  | Fin p, Fin q => match (p ?= q)%Qc with Eq => true | _ => false end
  | _, _ => false
  end.

Definition num_add (x y : number) : number :=
  match x, y with
  | NaN, _ | _, NaN => NaN
  | PosInf, NegInf | NegInf, PosInf => NaN
  | PosInf, _ | _, PosInf => PosInf
  | NegInf, _ | _, NegInf => NegInf
  | Fin p, Fin q => Fin (p + q)%Qc
  end.

Definition num_neg (x : number) : number :=
  match x with
  | NaN => NaN
  | PosInf => NegInf
  | NegInf => PosInf
  | Fin p => Fin (- p)%Qc
  end.

Definition num_sub (x y : number) : number := num_add x (num_neg y).

Definition sign_of (q : Qc) : comparison := (q ?= Q2Qc 0)%Qc.

(** [x / y].  A zero divisor stands for +0. *)
Definition num_div (x y : number) : number :=
  match x, y with
  | NaN, _ | _, NaN => NaN
  | (PosInf | NegInf), (PosInf | NegInf) => NaN
  | PosInf, Fin q => match sign_of q with Lt => NegInf | _ => PosInf end
  | NegInf, Fin q => match sign_of q with Lt => PosInf | _ => NegInf end
  | Fin _, (PosInf | NegInf) => of_Z 0
  | Fin p, Fin q =>
      match sign_of q with
      | Eq => match sign_of p with
              | Eq => NaN
              | Lt => NegInf
              | Gt => PosInf
              end
      | _ => Fin (p / q)%Qc
      end
  end.

(** [Math.ceil]. *)
Definition Math_ceil (x : number) : number :=
  match x with
  | Fin q => of_Z (Qceiling q)
  | _ => x
  end.

Definition num_max (x y : number) : number :=
  if is_NaN x || is_NaN y then NaN else if num_lt x y then y else x.

Definition num_min (x y : number) : number :=
  if is_NaN x || is_NaN y then NaN else if num_lt y x then y else x.

(** Values.  A string is kept as the bytes of its UTF-8 encoding; the
    component only concatenates strings, compares them, tests them for
    emptiness and strips ASCII characters from their ends.  Arrays and
    objects are heap objects: the first argument is the reference that
    [===] and [Object.is] compare.  An object carries its own properties
    in insertion order. *)
Inductive value : Type :=
| Undefined
| Null
| Boolean (b : bool)
| Number (n : number)
| Str (s : string)
| Array (ref : nat) (elems : list value)
| Object (ref : nat) (props : list (string * value)).

Definition int (z : Z) : value := Number (of_Z z).

(** [ToBoolean]: the falsy values are undefined, null, false, 0, NaN and
    the empty string. *)
Definition ToBoolean (v : value) : bool :=
  match v with
  | Undefined | Null => false
  | Boolean b => b
  | Number NaN => false
  | Number (Fin q) => negb (num_eq (Fin q) (of_Z 0))
  | Number _ => true
  | Str s => negb (s =? "")%string
  | Array _ _ | Object _ _ => true
  end.

(** [Array.isArray], returning the elements when it holds. *)
Definition isArray (v : value) : option (list value) :=
  match v with
  | Array _ l => Some l
  | _ => None
  end.

(** [typeof v === 'string'], returning the string when it holds. *)
Definition isString (v : value) : option string :=
  match v with
  | Str s => Some s
  | _ => None
  end.

Fixpoint lookup (k : string) (props : list (string * value)) : option value :=
  match props with
  | [] => None
  | (k', v) :: rest => if (k =? k')%string then Some v else lookup k rest
  end.

(** Completion of an evaluation: a value, or a thrown exception. *)
Inductive exn : Type :=
| TypeError
| AxiosError.

Inductive completion (A : Type) : Type :=
| Normal (a : A)
| Throw (e : exn).
Arguments Normal {A} a.
Arguments Throw {A} e.

(** Property read [v.k] for the keys the component reads from a response
    ([images], [rows], [rowCount], [currentPage], [totalPages]): none of
    them is on a built-in prototype, so only an object's own property
    answers; reading from undefined or null throws a TypeError. *)
Definition get (v : value) (k : string) : completion value :=
  match v with
  | Undefined | Null => Throw TypeError
  | Object _ props =>
      match lookup k props with
      | Some x => Normal x
      | None => Normal Undefined
      end
  | _ => Normal Undefined
  end.

(** [===].  Objects are equal when they are the same heap object. *)
Definition strict_eq (a b : value) : bool :=
  match a, b with
  | Undefined, Undefined | Null, Null => true
  | Boolean x, Boolean y => Bool.eqb x y
  | Number x, Number y => num_eq x y
  | Str x, Str y => (x =? y)%string
  | Array r _, Array r' _ | Object r _, Object r' _ => (r =? r')%nat
  | _, _ => false
  end.

(** [Object.is], the comparison React applies to dependency arrays: as
    [===] except that NaN is the same value as NaN. *)
Definition same_value (a b : value) : bool :=
  match a, b with
  | Number NaN, Number NaN => true
  | _, _ => strict_eq a b
  end.

(** The two conversions between strings and numbers are the engine's:
    [StringToNumber] reads a numeric literal (NaN when the string is none)
    and [Number::toString] prints a number.  Nothing is assumed of them. *)
Class Engine : Type := {
  StringToNumber : string -> number;
  NumberToString : number -> string
}.

Section Coercions.
Context {E : Engine}.

Definition join (sep : string) (parts : list string) : string :=
  match parts with
  | [] => ""
  | p :: ps => fold_left (fun acc x => acc ++ sep ++ x) ps p
  end.

(** [ToString].  An array prints as [Array.prototype.join] does, with an
    empty string for each undefined or null element; a plain object prints
    as [[object Object]]. *)
Fixpoint ToString (v : value) : string :=
  match v with
  | Undefined => "undefined"
  | Null => "null"
  | Boolean true => "true"
  | Boolean false => "false"
  | Number n => NumberToString n
  | Str s => s
  | Array _ l =>
      join ","
        (map (fun e => match e with
                       | Undefined | Null => ""
                       | _ => ToString e
                       end) l)
  | Object _ _ => "[object Object]"
  end.

(** [ToPrimitive]: [valueOf] of an array or plain object is the object
    itself, so the conversion falls through to [toString]. *)
Definition ToPrimitive (v : value) : value :=
  match v with
  | Array _ _ | Object _ _ => Str (ToString v)
  | _ => v
  end.

Definition ToNumber (v : value) : number :=
  match ToPrimitive v with
  | Undefined => NaN
  | Null => of_Z 0
  | Boolean true => of_Z 1
  | Boolean false => of_Z 0
  | Number n => n
  | Str s => StringToNumber s
  | Array _ _ | Object _ _ => NaN
  end.

(** [a + b]: concatenation as soon as one primitive is a string. *)
Definition add (a b : value) : value :=
  let pa := ToPrimitive a in
  let pb := ToPrimitive b in
  match pa, pb with
  | Str _, _ | _, Str _ => Str (ToString pa ++ ToString pb)
  | _, _ => Number (num_add (ToNumber pa) (ToNumber pb))
  end.

(** [a - b] and [a / b]. *)
Definition sub (a b : value) : value :=
  Number (num_sub (ToNumber a) (ToNumber b)).

Definition div (a b : value) : value :=
  Number (num_div (ToNumber a) (ToNumber b)).

(** [a > n] against a number [n]: with a number on one side the
    comparison is numeric whatever [a] is. *)
Definition gt_number (a : value) (n : number) : bool :=
  num_lt n (ToNumber a).

Definition Math_max (a b : value) : value :=
  Number (num_max (ToNumber a) (ToNumber b)).

Definition Math_min (a b : value) : value :=
  Number (num_min (ToNumber a) (ToNumber b)).

(** [Math.ceil(v)] on a value. *)
Definition ceil (v : value) : value := Number (Math_ceil (ToNumber v)).

End Coercions.

End Js.

(** An engine to evaluate examples with.  It prints integers in decimal,
    NaN and the infinities as every engine does; the examples print no
    other number and read no string as a number, and on those inputs it
    answers with the empty string and NaN. *)
Definition sample_engine : Js.Engine :=
  {| Js.StringToNumber := fun _ => Js.NaN;
     Js.NumberToString := fun n =>
       match n with
       | Js.NaN => "NaN"
       | Js.PosInf => "Infinity"
       | Js.NegInf => "-Infinity"
       | Js.Fin q =>
           if (Qden q =? 1)%positive
           then NilZero.string_of_int (Z.to_int (Qnum q))
           else ""
       end |}.

(** ** Regular expressions

    The fragment of ECMAScript patterns that [parseUsername] uses: a
    disjunction of sequences of the assertions [^] and [$] and of greedy
    one-or-more repetitions of a character class, matched by backtracking,
    and [String.prototype.replace] with the [g] flag and the empty
    replacement.  The pattern names ASCII characters only, and in UTF-8 an
    ASCII byte is never part of another character, so matching the bytes
    removes what matching the code units removes. *)

Module RegExp.

Inductive atom : Type :=
| LineStart                       (* ^ *)
| LineEnd                         (* $ *)
| ClassPlus (cls : list ascii).   (* [...]+ *)

Definition alternative : Type := list atom.
Definition pattern : Type := list alternative.   (* a1 | a2 | ... *)

Definition in_class (c : ascii) (cls : list ascii) : bool :=
  existsb (Ascii.eqb c) cls.

(** [[cls]+] followed by the continuation [k]: take one character of the
    class, then prefer a further repetition, and fall back to [k] when the
    longer attempt fails. *)
Fixpoint class_plus (cls : list ascii) (k : string -> option string)
    (s : string) : option string :=
  match s with
  | EmptyString => None
  | String c s' =>
      if in_class c cls then
        match class_plus cls k s' with
        | Some r => Some r
        | None => k s'
        end
      else None
  end.

(** Match a sequence at the current position; [at0] tells whether the
    position is index 0 (no [m] flag: [^] matches only there, [$] only at
    the end of the input).  The result is the input left after the match. *)
Fixpoint match_seq (a : alternative) (at0 : bool) (s : string)
    : option string :=
  match a with
  | [] => Some s
  | LineStart :: a' => if at0 then match_seq a' at0 s else None
  | LineEnd :: a' =>
      match s with
      | EmptyString => match_seq a' at0 s
      | String _ _ => None
      end
  | ClassPlus cls :: a' => class_plus cls (match_seq a' false) s
  end.

(** Alternatives are tried left to right. *)
Fixpoint match_pattern (p : pattern) (at0 : bool) (s : string)
    : option string :=
  match p with
  | [] => None
  | a :: p' =>
      match match_seq a at0 s with
      | Some r => Some r
      | None => match_pattern p' at0 s
      end
  end.

(** The loop of [replace] with a global pattern and replacement [''] :
    where the pattern matches, the match is dropped and the search resumes
    after it (one unit further after an empty match); where it does not,
    the code unit is kept and the search moves on by one. *)
Fixpoint replace_loop (fuel : nat) (p : pattern) (at0 : bool) (s : string)
    : string :=
  match fuel with
  | O => s
  | S fuel' =>
      let keep_one :=
        match s with
        | EmptyString => EmptyString
        | String c s' => String c (replace_loop fuel' p false s')
        end in
      match match_pattern p at0 s with
      | Some rest =>
          if (String.length rest <? String.length s)%nat
          then replace_loop fuel' p false rest
          else keep_one
      | None => keep_one
      end
  end.

Definition replace_all (p : pattern) (s : string) : string :=
  replace_loop (S (String.length s)) p true s.

End RegExp.

(** ** The username shown under an image ([ImageItem]) *)

Definition dquote : ascii := "034"%char.
Definition squote : ascii := "039"%char.
Definition lbrace : ascii := "{"%char.
Definition rbrace : ascii := "}"%char.

Definition leading_class : list ascii := [dquote; squote; lbrace].
Definition trailing_class : list ascii := [rbrace; dquote; squote].

(** The pattern [/^["'{]+|[}"']+$/g]. *)
Definition username_pattern : RegExp.pattern :=
  [ [RegExp.LineStart; RegExp.ClassPlus leading_class];
    [RegExp.ClassPlus trailing_class; RegExp.LineEnd] ].

Definition unknown_user : string := "Unknown User".

Definition parseUsername (usernameString : Js.value) : string :=
  match Js.isString usernameString with
  | None => unknown_user
  | Some s =>
      let cleanedString := RegExp.replace_all username_pattern s in
      if negb (Js.ToBoolean (Js.Str cleanedString)) then unknown_user
      else cleanedString
  end.

(** The sanitizer in the words of its specification: drop the leading run
    of characters of one class, then the trailing run of another. *)
Fixpoint strip_leading (cls : list ascii) (s : string) : string :=
  match s with
  | EmptyString => EmptyString
  | String c s' =>
      if RegExp.in_class c cls then strip_leading cls s' else s
  end.

Fixpoint strip_trailing (cls : list ascii) (s : string) : string :=
  match s with
  | EmptyString => EmptyString
  | String c s' =>
      match strip_trailing cls s' with
      | EmptyString =>
          if RegExp.in_class c cls then EmptyString else String c EmptyString
      | r => String c r
      end
  end.

Definition sanitize_spec (v : Js.value) : string :=
  match v with
  | Js.Str s =>
      match strip_trailing trailing_class (strip_leading leading_class s) with
      | EmptyString => unknown_user
      | stripped => stripped
      end
  | _ => unknown_user
  end.

Definition first_char (s : string) : option ascii :=
  match s with
  | EmptyString => None
  | String c _ => Some c
  end.

Fixpoint last_char (s : string) : option ascii :=
  match s with
  | EmptyString => None
  | String c EmptyString => Some c
  | String _ s' => last_char s'
  end.

Definition quoted (s : string) : string :=
  String dquote (s ++ String dquote EmptyString).


(** ** The [Gallery] component *)

Section GalleryComponent.

Context {E : Js.Engine}.

(** [process.env.REACT_APP_API_URL], fixed when the bundle is built. *)
Variable REACT_APP_API_URL : option string.

Definition API_URL : string :=
  match REACT_APP_API_URL with
  | Some s => if (s =? "")%string then "http://localhost:4000" else s
  | None => "http://localhost:4000"
  end.

(** The five [useState] cells.  [images] only ever receives an array (the
    rows that passed [Array.isArray], or [[]]) and the component reads its
    length and elements, so the cell holds the elements; [currentPage] and
    [totalPages] hold whatever the response declared; [error] is [null] or
    a message. *)
Record State : Type := mkState {
  images : list Js.value;
  currentPage : Js.value;
  totalPages : Js.value;
  isLoading : bool;
  error : option string
}.

Definition initial : State :=
  {| images := [];
     currentPage := Js.int 1;
     totalPages := Js.int 1;
     isLoading := false;
     error := None |}.

(** Callbacks run against the cells and may throw. *)
Definition M (A : Type) : Type := State -> Js.completion A * State.

Definition ret {A} (a : A) : M A := fun st => (Js.Normal a, st).

Definition bind {A B} (m : M A) (k : A -> M B) : M B :=
  fun st =>
    match m st with
    | (Js.Normal a, st') => k a st'
    | (Js.Throw e, st') => (Js.Throw e, st')
    end.

Definition lift {A} (c : Js.completion A) : M A := fun st => (c, st).

(** [try { m } catch (e) { h e }]. *)
Definition try_catch {A} (m : M A) (h : Js.exn -> M A) : M A :=
  fun st =>
    match m st with
    | (Js.Normal a, st') => (Js.Normal a, st')
    | (Js.Throw e, st') => h e st'
    end.

Notation "x <- m ;; k" := (bind m (fun x => k))
  (at level 61, m at next level, right associativity).
Notation "m ;; k" := (bind m (fun _ => k))
  (at level 61, right associativity).

Definition run (m : M unit) (st : State) : State := snd (m st).

Definition setImages (v : list Js.value) : M unit :=
  fun st => (Js.Normal tt,
             mkState v (currentPage st) (totalPages st) (isLoading st) (error st)).

Definition setCurrentPage (v : Js.value) : M unit :=
  fun st => (Js.Normal tt,
             mkState (images st) v (totalPages st) (isLoading st) (error st)).

(** [setCurrentPage(prev => f(prev))]. *)
Definition updateCurrentPage (f : Js.value -> Js.value) : M unit :=
  fun st => setCurrentPage (f (currentPage st)) st.

Definition setTotalPages (v : Js.value) : M unit :=
  fun st => (Js.Normal tt,
             mkState (images st) (currentPage st) v (isLoading st) (error st)).

Definition setIsLoading (b : bool) : M unit :=
  fun st => (Js.Normal tt,
             mkState (images st) (currentPage st) (totalPages st) b (error st)).

Definition setError (e : option string) : M unit :=
  fun st => (Js.Normal tt,
             mkState (images st) (currentPage st) (totalPages st) (isLoading st) e).

(** The guard of [updateGalleryState],
    [data.images && Array.isArray(data.images.rows)], with the rows when
    it holds. *)
Definition valid_rows (data : Js.value) : Js.completion (option (list Js.value)) :=
  match Js.get data "images" with
  | Js.Throw e => Js.Throw e
  | Js.Normal container =>
      if Js.ToBoolean container then
        match Js.get container "rows" with
        | Js.Throw e => Js.Throw e
        | Js.Normal rows => Js.Normal (Js.isArray rows)
        end
      else Js.Normal None
  end.

Definition invalid_data_message : string :=
  "Received invalid data from server".

Definition fetch_failed_message : string :=
  "Failed to load images. Please try again later.".

(** [data.totalPages > 0 ? data.totalPages
                          : Math.ceil(data.images.rowCount / 20)]. *)
Definition calculatedTotalPages (data : Js.value) : Js.completion Js.value :=
  match Js.get data "totalPages" with
  | Js.Throw e => Js.Throw e
  | Js.Normal declared =>
      if Js.gt_number declared (Js.of_Z 0) then Js.Normal declared
      else
        match Js.get data "images" with
        | Js.Throw e => Js.Throw e
        | Js.Normal container =>
            match Js.get container "rowCount" with
            | Js.Throw e => Js.Throw e
            | Js.Normal rowCount =>
                Js.Normal (Js.ceil (Js.div rowCount (Js.int 20)))
            end
        end
  end.

Definition updateGalleryState (data : Js.value) : M unit :=
  guard <- lift (valid_rows data) ;;
  match guard with
  | Some rows =>
      setImages rows ;;
      page <- lift (Js.get data "currentPage") ;;
      setCurrentPage page ;;
      total <- lift (calculatedTotalPages data) ;;
      setTotalPages total
  | None =>
      setError (Some invalid_data_message) ;;
      setImages []
  end.

Definition handleFetchError (e : Js.exn) : M unit :=
  setError (Some fetch_failed_message).

(** How [axios.get] settles: fulfilled with a response whose [data] is the
    decoded body, or rejected. *)
Inductive reply : Type :=
| Fulfilled (data : Js.value)
| Rejected.

Definition await (r : reply) : M Js.value :=
  match r with
  | Fulfilled data => ret data
  | Rejected => lift (Js.Throw Js.AxiosError)
  end.

Record Request : Type := mkRequest {
  url : string;
  withCredentials : bool
}.

(** The request [fetchImages] sends for the page it closed over. *)
Definition gallery_request (page : Js.value) : Request :=
  {| url := API_URL ++ "/gallery?page=" ++ Js.ToString page;
     withCredentials := true |}.

(** [fetchImages] up to its [await]. *)
Definition fetchImages_begin : M unit :=
  setIsLoading true ;;
  setError None.

(** [fetchImages] from the [await] on. *)
Definition fetchImages_settle (r : reply) : M unit :=
  try_catch
    (response_data <- await r ;;
     updateGalleryState response_data)
    handleFetchError ;;
  setIsLoading false.

(** One whole fetch attempt, nothing else touching the cells meanwhile. *)
Definition fetchImages (r : reply) : M unit :=
  fetchImages_begin ;;
  fetchImages_settle r.

(** The updaters of the two navigation handlers:
    [prev => Math.max(prev - 1, 1)] and
    [prev => Math.min(prev + 1, totalPages)]. *)
Definition previous (prev : Js.value) : Js.value :=
  Js.Math_max (Js.sub prev (Js.int 1)) (Js.int 1).

Definition next (totalPages prev : Js.value) : Js.value :=
  Js.Math_min (Js.add prev (Js.int 1)) totalPages.

Definition goToPreviousPage : M unit :=
  updateCurrentPage previous.

(** [totalPages] is the cell as the current render read it. *)
Definition goToNextPage : M unit :=
  fun st => updateCurrentPage (next (totalPages st)) st.

(** *** What is rendered *)

Record PaginationView : Type := mkPagination {
  previous_disabled : bool;
  page_info : Js.value * Js.value;
  next_disabled : bool
}.

Definition Pagination (currentPage totalPages : Js.value) (isLoading : bool)
    : PaginationView :=
  {| previous_disabled := Js.strict_eq currentPage (Js.int 1) || isLoading;
     page_info := (currentPage, totalPages);
     next_disabled := Js.strict_eq currentPage totalPages || isLoading |}.

Inductive Content : Type :=
| ImageGrid (items : list Js.value)
| NoImagesAvailable.

Record View : Type := mkView {
  loading_shown : bool;
  error_shown : option string;
  content : Content;
  pagination : PaginationView
}.

(** The element tree [Gallery] returns. *)
Definition Gallery (st : State) : View :=
  {| loading_shown := isLoading st;
     error_shown :=
       match error st with
       | Some msg => if Js.ToBoolean (Js.Str msg) then Some msg else None
       | None => None
       end;
     content :=
       if (0 <? List.length (images st))%nat then ImageGrid (images st)
       else NoImagesAvailable;
     pagination :=
       Pagination (currentPage st) (totalPages st) (isLoading st) |}.

Definition no_images_shown (v : View) : bool :=
  match content v with
  | NoImagesAvailable => true
  | ImageGrid _ => false
  end.

Definition previous_actionable (v : View) : bool :=
  negb (previous_disabled (pagination v)).

Definition next_actionable (v : View) : bool :=
  negb (next_disabled (pagination v)).

(** *** When a fetch goes out: [useCallback] and [useEffect]

    [fetchImages] is memoised on [[currentPage, updateGalleryState,
    handleFetchError]]; the last two are memoised on [[]] and never change,
    so a new [fetchImages] is made exactly when [currentPage] is not the
    same value ([Object.is]) as at the render that made the current one.
    The effect is keyed on [[fetchImages]] and calls it.  State updates of
    one event are applied together before the next render. *)

(** What React keeps for the component between renders: the cells; the
    [currentPage] that the memoised [fetchImages] closed over ([None]
    before the first render); which function object [fetchImages] is; and
    the [fetchImages] the effect last ran for. *)
Record Hooks : Type := mkHooks {
  cells : State;
  fetchImages_dep : option Js.value;
  fetchImages_id : nat;
  effect_dep : option nat
}.

Definition unmounted : Hooks :=
  {| cells := initial;
     fetchImages_dep := None;
     fetchImages_id := 0%nat;
     effect_dep := None |}.

Definition with_cells (h : Hooks) (st : State) : Hooks :=
  mkHooks st (fetchImages_dep h) (fetchImages_id h) (effect_dep h).

Definition useCallback_fetchImages (h : Hooks) : Hooks :=
  let page := currentPage (cells h) in
  let fresh :=
    mkHooks (cells h) (Some page) (S (fetchImages_id h)) (effect_dep h) in
  match fetchImages_dep h with
  | Some dep => if Js.same_value dep page then h else fresh
  | None => fresh
  end.

Definition useEffect_due (h : Hooks) : bool :=
  match effect_dep h with
  | Some f => negb (f =? fetchImages_id h)%nat
  | None => true
  end.

(** The page the current [fetchImages] closed over. *)
Definition captured_page (h : Hooks) : Js.value :=
  match fetchImages_dep h with
  | Some dep => dep
  | None => currentPage (cells h)
  end.

(** Calling [fetchImages()]: its synchronous part runs and the request
    leaves. *)
Definition call_fetchImages (h : Hooks) : Hooks * list Request :=
  (with_cells h (run fetchImages_begin (cells h)),
   [gallery_request (captured_page h)]).

(** One render and commit: the effect, when due, calls [fetchImages]. *)
Definition render_pass (h : Hooks) : Hooks * list Request :=
  let h1 := useCallback_fetchImages h in
  if useEffect_due h1 then
    call_fetchImages
      (mkHooks (cells h1) (fetchImages_dep h1) (fetchImages_id h1)
               (Some (fetchImages_id h1)))
  else (h1, []).

(** The render an event causes, and the render the effect's own updates
    cause in turn. *)
Definition rerender (h : Hooks) : Hooks * list Request :=
  let '(h1, sent1) := render_pass h in
  let '(h2, sent2) := render_pass h1 in
  (h2, (sent1 ++ sent2)%list).

Inductive event : Type :=
| Mount
| ClickRefresh
| ClickPrevious
| ClickNext
| Settled (r : reply).

Definition handle (ev : event) (h : Hooks) : Hooks * list Request :=
  match ev with
  | Mount => rerender h
  | ClickRefresh =>
      let '(h1, sent1) := call_fetchImages h in
      let '(h2, sent2) := rerender h1 in
      (h2, (sent1 ++ sent2)%list)
  | ClickPrevious => rerender (with_cells h (run goToPreviousPage (cells h)))
  | ClickNext => rerender (with_cells h (run goToNextPage (cells h)))
  | Settled r => rerender (with_cells h (run (fetchImages_settle r) (cells h)))
  end.

(** A component at rest: mounted, rendered with the current page, its
    effect run. *)
Definition at_rest (h : Hooks) : Prop :=
  (exists dep, fetchImages_dep h = Some dep /\
               Js.same_value dep (currentPage (cells h)) = true) /\
  effect_dep h = Some (fetchImages_id h).

(** The component once mounted, after any sequence of events. *)
Inductive running : Hooks -> Prop :=
| running_mounted : running (fst (handle Mount unmounted))
| running_event h ev : running h -> running (fst (handle ev h)).

(** *** The states the component can be in

    A navigation action, the start of a fetch, or a fetch settling; the
    replies that may arrive are those [served] admits. *)

Inductive step (served : reply -> Prop) : State -> State -> Prop :=
| step_previous st : step served st (run goToPreviousPage st)
| step_next st : step served st (run goToNextPage st)
| step_begin st : step served st (run fetchImages_begin st)
| step_settle st r :
    served r -> step served st (run (fetchImages_settle r) st).

Inductive reachable (served : reply -> Prop) : State -> Prop :=
| reachable_initial : reachable served initial
| reachable_step st st' :
    reachable served st -> step served st st' -> reachable served st'.

Definition any_reply (r : reply) : Prop := True.



(** *** Shapes of a response body *)

(** The body has an [images] container whose [rows] is an array. *)
Definition valid_shape (body : Js.value) (rows : list Js.value) : Prop :=
  exists container ref,
    Js.get body "images" = Js.Normal container /\
    Js.get container "rows" = Js.Normal (Js.Array ref rows).



(** *** The specified behaviour, where the code is compared with it *)



(** The render the specification describes. *)
Definition renders_as_specified (st : State) : Prop :=
  (no_images_shown (Gallery st) = true <->
     images st = [] /\ error st = None) /\
  (previous_actionable (Gallery st) = true <->
     Js.gt_number (currentPage st) (Js.of_Z 1) = true /\
     isLoading st = false) /\
  (next_actionable (Gallery st) = true <->
     Js.num_lt (Js.ToNumber (currentPage st))
               (Js.ToNumber (totalPages st)) = true /\
     isLoading st = false).


(** *** Sample responses and states *)

Definition sample_image (ref : nat) (id : Z) (username : string) : Js.value :=
  Js.Object ref
    [("id", Js.int id);
     ("image_path", Js.Str "/uploads/picture.png");
     ("prompt", Js.Str "a lighthouse at dusk");
     ("username", Js.Str username)].

Definition img1 : Js.value := sample_image 11 1 "{alice}".
Definition img2 : Js.value := sample_image 12 2 "'bob'".

Definition gallery_body (rows : list Js.value) (rowCount : Js.value)
    (rest : list (string * Js.value)) : Js.value :=
  Js.Object 1
    (("images", Js.Object 2 [("rows", Js.Array 3 rows);
                             ("rowCount", rowCount)]) :: rest).

(** One page of two images. *)
Definition single_page_body : Js.value :=
  gallery_body [img1; img2] (Js.int 2)
    [("currentPage", Js.int 1); ("totalPages", Js.int 1)].





(** The first page on display. *)
Definition showing_first_page : State :=
  {| images := [img1; img2];
     currentPage := Js.int 1;
     totalPages := Js.int 3;
     isLoading := false;
     error := None |}.

(** The state an invalid body leaves behind. *)
Definition invalid_data_state : State :=
  {| images := [];
     currentPage := Js.int 1;
     totalPages := Js.int 3;
     isLoading := false;
     error := Some invalid_data_message |}.

(** A state showing the page the server declared as page 0. *)
Definition page_zero_state : State :=
  {| images := [img1];
     currentPage := Js.int 0;
     totalPages := Js.int 3;
     isLoading := false;
     error := None |}.

(** The component at rest on page 2 of 3. *)
Definition on_second_page : Hooks :=
  {| cells := {| images := [img1; img2];
                 currentPage := Js.int 2;
                 totalPages := Js.int 3;
                 isLoading := false;
                 error := None |};
     fetchImages_dep := Some (Js.int 2);
     fetchImages_id := 2%nat;
     effect_dep := Some 2%nat |}.

(** The component at rest on page 1 of 3. *)
Definition on_first_page : Hooks :=
  {| cells := showing_first_page;
     fetchImages_dep := Some (Js.int 1);
     fetchImages_id := 1%nat;
     effect_dep := Some 1%nat |}.

(** *** The grid and its items ([ImageGrid], [ImageItem])

    The properties read from an image ([id], [username], [image_path],
    [prompt]) are on no built-in prototype either, so [Js.get] reads them
    as the engine does. *)









(** Every character of the string is in the class. *)
Fixpoint all_in_class (cls : list ascii) (s : string) : bool :=
  match s with
  | EmptyString => true
  | String c s' => RegExp.in_class c cls && all_in_class cls s'
  end.


(** A body that declares neither a total nor a row count. *)
Definition countless_body : Js.value :=
  Js.Object 1
    [("images", Js.Object 2 [("rows", Js.Array 3 [img1])]);
     ("currentPage", Js.int 1)].

(** ** Arithmetic on integer-valued numbers *)



Lemma Qccompare_of_Z (a b : Z) :
  (Q2Qc (inject_Z a) ?= Q2Qc (inject_Z b))%Qc = (a ?= b)%Z.
Proof.
  unfold Qccompare. cbn [this Q2Qc].
  rewrite !Qred_correct. unfold Qcompare. cbn. now rewrite !Z.mul_1_r.
Qed.


Lemma num_eq_of_Z (a b : Z) : Js.num_eq (Js.of_Z a) (Js.of_Z b) = (a =? b)%Z.
Proof.
  cbn. rewrite Qccompare_of_Z.
  destruct (Z.compare_spec a b), (Z.eqb_spec a b); (reflexivity || lia).
Qed.






(** ** The pattern of [parseUsername] *)

Section Stripping.

Variable cls : list ascii.

Lemma strip_trailing_cons (c : ascii) (s : string) :
  strip_trailing cls (String c s) <> EmptyString ->
  strip_trailing cls (String c s) = String c (strip_trailing cls s).
Proof.
  cbn [strip_trailing].
  destruct (strip_trailing cls s); [|reflexivity].
  destruct (RegExp.in_class c cls); [congruence | reflexivity].
Qed.

Lemma strip_leading_length (s : string) :
  (String.length (strip_leading cls s) <= String.length s)%nat.
Proof.
  induction s as [|c s IH]; cbn [strip_leading]; [lia|].
  destruct (RegExp.in_class c cls); cbn [String.length]; lia.
Qed.

Lemma strip_leading_first (s : string) (c : ascii) :
  first_char (strip_leading cls s) = Some c -> RegExp.in_class c cls = false.
Proof.
  induction s as [|a s IH]; cbn [strip_leading first_char]; [discriminate|].
  destruct (RegExp.in_class a cls) eqn:Ha; [exact IH|].
  cbn [first_char]. congruence.
Qed.

Lemma strip_leading_fixed (s : string) :
  match first_char s with
  | Some c => RegExp.in_class c cls = false
  | None => True
  end ->
  strip_leading cls s = s.
Proof.
  destruct s as [|c s]; cbn [first_char strip_leading]; [reflexivity|].
  now intros ->.
Qed.

Lemma strip_trailing_first (s : string) :
  strip_trailing cls s <> EmptyString ->
  first_char (strip_trailing cls s) = first_char s.
Proof.
  destruct s as [|c s]; [reflexivity|].
  intros H. now rewrite (strip_trailing_cons _ _ H).
Qed.

Lemma strip_trailing_last (s : string) :
  strip_trailing cls s <> EmptyString ->
  exists c, last_char (strip_trailing cls s) = Some c /\
            RegExp.in_class c cls = false.
Proof.
  induction s as [|a s IH]; [cbn; congruence|].
  cbn [strip_trailing].
  destruct (strip_trailing cls s) as [|b r] eqn:Hs.
  - destruct (RegExp.in_class a cls) eqn:Ha; [congruence|].
    intros _. exists a. now split.
  - intros _. destruct IH as (c & Hc & Hin); [congruence|].
    exists c. split; [|exact Hin]. exact Hc.
Qed.

Lemma strip_trailing_fixed (s : string) :
  match last_char s with
  | Some c => RegExp.in_class c cls = false
  | None => True
  end ->
  strip_trailing cls s = s.
Proof.
  induction s as [|a s IH]; [reflexivity|].
  cbn [last_char strip_trailing].
  destruct s as [|b s].
  - cbn [strip_trailing]. now intros ->.
  - intros H. rewrite (IH H). reflexivity.
Qed.

(** [[cls]+$] matches exactly a non-empty input made of the class. *)
Lemma class_plus_to_end (s : string) :
  RegExp.class_plus cls (RegExp.match_seq [RegExp.LineEnd] false) s =
  match s with
  | EmptyString => None
  | String _ _ =>
      match strip_trailing cls s with
      | EmptyString => Some EmptyString
      | String _ _ => None
      end
  end.
Proof.
  induction s as [|c s IH]; [reflexivity|].
  cbn [RegExp.class_plus strip_trailing].
  destruct (RegExp.in_class c cls) eqn:Hc.
  - rewrite IH. destruct s as [|b s]; [reflexivity|].
    destruct (strip_trailing cls (String b s)); reflexivity.
  - destruct (strip_trailing cls s); reflexivity.
Qed.

(** [[cls]+] with nothing after it takes the whole leading run. *)
Lemma class_plus_greedy (s : string) :
  RegExp.class_plus cls (RegExp.match_seq [] false) s =
  match s with
  | EmptyString => None
  | String c _ =>
      if RegExp.in_class c cls then Some (strip_leading cls s) else None
  end.
Proof.
  induction s as [|c s IH]; [reflexivity|].
  cbn [RegExp.class_plus strip_leading].
  destruct (RegExp.in_class c cls) eqn:Hc; [|reflexivity].
  rewrite IH. destruct s as [|b s]; [reflexivity|].
  cbn [strip_leading]. now destruct (RegExp.in_class b cls).
Qed.

End Stripping.

Lemma match_username_inside (s : string) :
  RegExp.match_pattern username_pattern false s =
  match s with
  | EmptyString => None
  | String _ _ =>
      match strip_trailing trailing_class s with
      | EmptyString => Some EmptyString
      | String _ _ => None
      end
  end.
Proof.
  unfold username_pattern.
  cbn [RegExp.match_pattern RegExp.match_seq].
  rewrite class_plus_to_end.
  destruct s as [|c s]; [reflexivity|].
  now destruct (strip_trailing trailing_class (String c s)).
Qed.

Lemma match_username_at_start (s : string) :
  RegExp.match_pattern username_pattern true s =
  match s with
  | EmptyString => None
  | String c _ =>
      if RegExp.in_class c leading_class
      then Some (strip_leading leading_class s)
      else RegExp.match_pattern username_pattern false s
  end.
Proof.
  unfold username_pattern.
  cbn [RegExp.match_pattern RegExp.match_seq].
  rewrite class_plus_greedy.
  destruct s as [|c s]; [reflexivity|].
  now destruct (RegExp.in_class c leading_class).
Qed.

(** Past index 0 the replacement only ever removes the trailing run. *)
Lemma replace_loop_inside (fuel : nat) (s : string) :
  (String.length s < fuel)%nat ->
  RegExp.replace_loop fuel username_pattern false s =
  strip_trailing trailing_class s.
Proof.
  revert s. induction fuel as [|fuel IH]; intros s Hlen; [lia|].
  cbn [RegExp.replace_loop]. rewrite match_username_inside.
  destruct s as [|c s]; [reflexivity|].
  cbn [String.length] in Hlen.
  destruct (strip_trailing trailing_class (String c s)) as [|a r] eqn:Hs.
  - cbn [String.length Nat.ltb Nat.leb].
    destruct fuel; reflexivity.
  - rewrite IH by lia. rewrite <- Hs.
    symmetry. apply strip_trailing_cons. congruence.
Qed.

Lemma replace_all_username (s : string) :
  RegExp.replace_all username_pattern s =
  strip_trailing trailing_class (strip_leading leading_class s).
Proof.
  unfold RegExp.replace_all.
  destruct s as [|c s]; [reflexivity|].
  cbn [RegExp.replace_loop]. rewrite match_username_at_start.
  destruct (RegExp.in_class c leading_class) eqn:Hc.
  - pose proof (strip_leading_length leading_class s) as Hlen.
    cbn [strip_leading]. rewrite Hc.
    destruct (Nat.ltb_spec
                (String.length (strip_leading leading_class s))
                (String.length (String c s))) as [Hlt|Hge];
      [|cbn [String.length] in Hge; lia].
    apply replace_loop_inside. exact Hlt.
  - cbn [strip_leading]. rewrite Hc.
    change (RegExp.replace_loop (S (String.length (String c s)))
              username_pattern false (String c s) =
            strip_trailing trailing_class (String c s)).
    apply replace_loop_inside. lia.
Qed.

Lemma parseUsername_sanitize (v : Js.value) :
  parseUsername v = sanitize_spec v.
Proof.
  destruct v; try reflexivity.
  unfold parseUsername, sanitize_spec. cbn [Js.isString].
  rewrite replace_all_username. cbn [Js.ToBoolean].
  now destruct (strip_trailing trailing_class (strip_leading leading_class s)).
Qed.

(** ** One fetch attempt *)

Lemma run_fetchImages (r : reply) (st : State) :
  run (fetchImages r) st =
  run (fetchImages_settle r) (run fetchImages_begin st).
Proof. reflexivity. Qed.

Lemma run_fetchImages_begin (st : State) :
  run fetchImages_begin st =
  mkState (images st) (currentPage st) (totalPages st) true None.
Proof. reflexivity. Qed.

Lemma settle_rejected (st : State) :
  run (fetchImages_settle Rejected) st =
  mkState (images st) (currentPage st) (totalPages st) false
          (Some fetch_failed_message).
Proof. reflexivity. Qed.

Lemma settle_thrown (st : State) (body : Js.value) (e : Js.exn) :
  valid_rows body = Js.Throw e ->
  run (fetchImages_settle (Fulfilled body)) st =
  mkState (images st) (currentPage st) (totalPages st) false
          (Some fetch_failed_message).
Proof.
  intros H.
  unfold run, fetchImages_settle, try_catch, bind, await, ret,
    updateGalleryState, bind, lift.
  rewrite H. reflexivity.
Qed.

Lemma settle_invalid (st : State) (body : Js.value) :
  valid_rows body = Js.Normal None ->
  run (fetchImages_settle (Fulfilled body)) st =
  mkState [] (currentPage st) (totalPages st) false
          (Some invalid_data_message).
Proof.
  intros H.
  unfold run, fetchImages_settle, try_catch, bind, await, ret,
    updateGalleryState, bind, lift.
  rewrite H. reflexivity.
Qed.

Lemma settle_valid (st : State) (body : Js.value) (rows : list Js.value)
    (page total : Js.value) :
  valid_rows body = Js.Normal (Some rows) ->
  Js.get body "currentPage" = Js.Normal page ->
  calculatedTotalPages body = Js.Normal total ->
  run (fetchImages_settle (Fulfilled body)) st =
  mkState rows page total false (error st).
Proof.
  intros Hrows Hpage Htotal.
  unfold run, fetchImages_settle, try_catch, bind, await, ret,
    updateGalleryState, bind, lift.
  rewrite Hrows. cbn. rewrite Hpage. cbn. rewrite Htotal. reflexivity.
Qed.

(** What the guard accepts: an object whose [images] is an object whose
    [rows] is an array. *)
Lemma valid_rows_inv (body : Js.value) (rows : list Js.value) :
  valid_rows body = Js.Normal (Some rows) ->
  exists ref props cref cprops rref,
    body = Js.Object ref props /\
    Js.lookup "images" props = Some (Js.Object cref cprops) /\
    Js.lookup "rows" cprops = Some (Js.Array rref rows).
Proof.
  unfold valid_rows.
  destruct body as [| | b | n | s | ref elems | ref props];
    try discriminate.
  cbn [Js.get].
  destruct (Js.lookup "images" props) as [container|] eqn:Hc;
    [|discriminate].
  destruct (Js.ToBoolean container); [|discriminate].
  destruct container as [| | b | n | s | cref elems | cref cprops];
    try discriminate.
  cbn [Js.get].
  destruct (Js.lookup "rows" cprops) as [r|] eqn:Hr; [|discriminate].
  destruct r; try discriminate.
  cbn [Js.isArray]. intros H.
  assert (elems = rows) by congruence. subst.
  now exists ref, props, cref, cprops, ref0.
Qed.

Lemma valid_shape_inv (body : Js.value) (rows : list Js.value) :
  valid_shape body rows ->
  exists ref props cref cprops rref,
    body = Js.Object ref props /\
    Js.lookup "images" props = Some (Js.Object cref cprops) /\
    Js.lookup "rows" cprops = Some (Js.Array rref rows).
Proof.
  intros (container & rref & Hc & Hr).
  destruct container as [| | b | n | s | cref elems | cref cprops];
    try discriminate.
  destruct body as [| | b | n | s | ref elems | ref props];
    try discriminate.
  cbn [Js.get] in Hc, Hr.
  destruct (Js.lookup "images" props) as [c|] eqn:Hi; [|discriminate].
  destruct (Js.lookup "rows" cprops) as [r|] eqn:Hl; [|discriminate].
  exists ref, props, cref, cprops, rref. repeat split; congruence.
Qed.

Lemma valid_rows_iff_shape (body : Js.value) (rows : list Js.value) :
  valid_rows body = Js.Normal (Some rows) <-> valid_shape body rows.
Proof.
  split.
  - intros H.
    destruct (valid_rows_inv _ _ H)
      as (ref & props & cref & cprops & rref & -> & Hi & Hr).
    exists (Js.Object cref cprops), rref. cbn [Js.get].
    now rewrite Hi, Hr.
  - intros H.
    destruct (valid_shape_inv _ _ H)
      as (ref & props & cref & cprops & rref & -> & Hi & Hr).
    unfold valid_rows. cbn [Js.get]. rewrite Hi. cbn [Js.ToBoolean Js.get].
    now rewrite Hr.
Qed.

Lemma calculatedTotalPages_eq (body container declared rowCount : Js.value) :
  Js.get body "images" = Js.Normal container ->
  Js.get container "rowCount" = Js.Normal rowCount ->
  Js.get body "totalPages" = Js.Normal declared ->
  calculatedTotalPages body =
  Js.Normal (if Js.gt_number declared (Js.of_Z 0) then declared
             else Js.ceil (Js.div rowCount (Js.int 20))).
Proof.
  intros Hc Hr Hd. unfold calculatedTotalPages. rewrite Hd.
  destruct (Js.gt_number declared (Js.of_Z 0)); [reflexivity|].
  now rewrite Hc, Hr.
Qed.


Lemma get_total (ref : nat) (props : list (string * Js.value)) (k : string) :
  exists v, Js.get (Js.Object ref props) k = Js.Normal v.
Proof. cbn [Js.get]. destruct (Js.lookup k props); eauto. Qed.

Lemma ToNumber_Number (n : Js.number) : Js.ToNumber (Js.Number n) = n.
Proof. reflexivity. Qed.



(** A body the guard rejects without throwing ends in the invalid-data
    state. *)
Lemma malformed_body_state (st : State) (body : Js.value) :
  body <> Js.Undefined -> body <> Js.Null ->
  (forall rows, ~ valid_shape body rows) ->
  run (fetchImages (Fulfilled body)) st =
  mkState [] (currentPage st) (totalPages st) false
          (Some invalid_data_message).
Proof.
  intros Hu Hn Hshape. rewrite run_fetchImages.
  destruct (valid_rows body) as [[rows|]|e] eqn:Hv.
  - exfalso. apply (Hshape rows). now apply valid_rows_iff_shape.
  - now rewrite (settle_invalid _ _ Hv).
  - exfalso. unfold valid_rows in Hv.
    destruct body as [| | b | n | s | ref elems | ref props];
      try congruence; cbn [Js.get] in Hv.
    all: try discriminate.
    destruct (Js.lookup "images" props) as [c|]; [|discriminate].
    destruct (Js.ToBoolean c) eqn:Hb; [|discriminate].
    destruct c; cbn [Js.get] in Hv; try discriminate.
    destruct (Js.lookup "rows" props0); discriminate.
Qed.

(** A rejected request ends in the fetch-failed state, whatever was on
    display. *)
Lemma rejected_fetch_state (st : State) :
  run (fetchImages Rejected) st =
  mkState (images st) (currentPage st) (totalPages st) false
          (Some fetch_failed_message).
Proof. reflexivity. Qed.

(** ** Navigation *)





Lemma run_goToNextPage (st : State) :
  run goToNextPage st =
  mkState (images st) (next (totalPages st) (currentPage st)) (totalPages st)
          (isLoading st) (error st).
Proof. reflexivity. Qed.

(** ** The page invariant *)



(** ** The render *)

Lemma no_images_shown_iff (st : State) :
  no_images_shown (Gallery st) = true <-> images st = [].
Proof.
  unfold no_images_shown, Gallery. cbn [content].
  destruct (images st); cbn; split; congruence.
Qed.

Lemma previous_actionable_eq (st : State) :
  previous_actionable (Gallery st) =
  negb (Js.strict_eq (currentPage st) (Js.int 1)) && negb (isLoading st).
Proof.
  unfold previous_actionable, Gallery, Pagination.
  cbn [pagination previous_disabled]. apply negb_orb.
Qed.

Lemma next_actionable_eq (st : State) :
  next_actionable (Gallery st) =
  negb (Js.strict_eq (currentPage st) (totalPages st)) && negb (isLoading st).
Proof.
  unfold next_actionable, Gallery, Pagination.
  cbn [pagination next_disabled]. apply negb_orb.
Qed.

Lemma strict_eq_int (a b : Z) :
  Js.strict_eq (Js.int a) (Js.int b) = (a =? b)%Z.
Proof. cbn [Js.strict_eq Js.int]. apply num_eq_of_Z. Qed.

(** ** Dependency arrays *)

Lemma Qccompare_refl (q : Qc) : (q ?= q)%Qc = Eq.
Proof. now apply Qceq_alt. Qed.

Lemma same_value_refl (v : Js.value) : Js.same_value v v = true.
Proof.
  destruct v as [| | b | [| | |q] | s | ref elems | ref props]; cbn;
    try reflexivity.
  - now destruct b.
  - now rewrite Qccompare_refl.
  - apply String.eqb_refl.
  - apply Nat.eqb_refl.
  - apply Nat.eqb_refl.
Qed.

(** Two values that are the same value compare alike with any third. *)
Lemma same_value_subst (a b c : Js.value) :
  Js.same_value a b = true -> Js.same_value a c = Js.same_value b c.
Proof.
  destruct a as [| | x | [| | |p] | s | r l | r l],
           b as [| | y | [| | |q] | s' | r' l' | r' l'];
    cbn; try discriminate; try reflexivity.
  - intros H. apply Bool.eqb_prop in H. now subst.
  - destruct (p ?= q)%Qc eqn:Hpq; try discriminate.
    apply Qceq_alt in Hpq. now subst.
  - intros H. apply String.eqb_eq in H. now subst.
  - intros H. apply Nat.eqb_eq in H. subst.
    destruct c; reflexivity.
  - intros H. apply Nat.eqb_eq in H. subst.
    destruct c; reflexivity.
Qed.

Lemma render_pass_same (h : Hooks) (dep : Js.value) :
  fetchImages_dep h = Some dep ->
  Js.same_value dep (currentPage (cells h)) = true ->
  effect_dep h = Some (fetchImages_id h) ->
  render_pass h = (h, []).
Proof.
  intros Hdep Hsame Heff.
  unfold render_pass, useCallback_fetchImages. rewrite Hdep, Hsame.
  unfold useEffect_due. rewrite Heff, Nat.eqb_refl. reflexivity.
Qed.

Lemma render_pass_changed (h : Hooks) (dep : Js.value) :
  fetchImages_dep h = Some dep ->
  Js.same_value dep (currentPage (cells h)) = false ->
  effect_dep h = Some (fetchImages_id h) ->
  render_pass h =
  (mkHooks (run fetchImages_begin (cells h)) (Some (currentPage (cells h)))
           (S (fetchImages_id h)) (Some (S (fetchImages_id h))),
   [gallery_request (currentPage (cells h))]).
Proof.
  intros Hdep Hsame Heff.
  unfold render_pass, useCallback_fetchImages. rewrite Hdep, Hsame.
  unfold useEffect_due. cbn [effect_dep fetchImages_id]. rewrite Heff.
  assert (Hne : (fetchImages_id h =? S (fetchImages_id h))%nat = false)
    by (apply Nat.eqb_neq; lia).
  rewrite Hne. reflexivity.
Qed.

(** What an event's render does to a mounted component: nothing when the
    page is the one [fetchImages] closed over, and otherwise one call of a
    new [fetchImages]. *)
Lemma rerender_mounted (h : Hooks) (dep : Js.value) :
  fetchImages_dep h = Some dep ->
  effect_dep h = Some (fetchImages_id h) ->
  rerender h =
  if Js.same_value dep (currentPage (cells h)) then (h, [])
  else
    (mkHooks (run fetchImages_begin (cells h)) (Some (currentPage (cells h)))
             (S (fetchImages_id h)) (Some (S (fetchImages_id h))),
     [gallery_request (currentPage (cells h))]).
Proof.
  intros Hdep Heff. unfold rerender.
  destruct (Js.same_value dep (currentPage (cells h))) eqn:Hsame.
  - now rewrite !(render_pass_same h dep Hdep Hsame Heff).
  - rewrite (render_pass_changed h dep Hdep Hsame Heff).
    erewrite render_pass_same; [reflexivity | reflexivity | | reflexivity].
    apply same_value_refl.
Qed.

(** ** The component at rest *)

(** An event leaves a mounted component at rest. *)
Lemma handle_keeps_at_rest (ev : event) (h : Hooks) :
  at_rest h -> at_rest (fst (handle ev h)).
Proof.
  intros ((dep & Hdep & Hsame) & Heff).
  assert (Hgen : forall st1, at_rest (fst (rerender (with_cells h st1)))).
  { intros st1.
    rewrite (rerender_mounted (with_cells h st1) dep Hdep Heff).
    cbn [with_cells cells fetchImages_id].
    destruct (Js.same_value dep (currentPage st1)) eqn:Hchg;
      unfold at_rest;
      cbn [fst with_cells cells fetchImages_dep fetchImages_id effect_dep].
    - split; [|exact Heff]. now exists dep.
    - split; [|reflexivity]. exists (currentPage st1).
      split; [reflexivity | apply same_value_refl]. }
  destruct ev; cbn [handle]; try apply Hgen.
  - rewrite (rerender_mounted h dep Hdep Heff), Hsame.
    split; [now exists dep | exact Heff].
  - unfold call_fetchImages.
    destruct (rerender (with_cells h (run fetchImages_begin (cells h))))
      as [h2 sent2] eqn:Hre.
    cbn [fst]. change h2 with (fst (h2, sent2)). rewrite <- Hre. apply Hgen.
Qed.

(** Mounting sends the request for page 1 and leaves the component at
    rest, loading. *)
Lemma mount_fetches_first_page :
  snd (handle Mount unmounted) = [gallery_request (Js.int 1)] /\
  isLoading (cells (fst (handle Mount unmounted))) = true /\
  at_rest (fst (handle Mount unmounted)).
Proof.
  repeat split.
  exists (Js.int 1). split; [reflexivity | apply same_value_refl].
Qed.

Lemma running_at_rest (h : Hooks) : running h -> at_rest h.
Proof.
  induction 1 as [|h ev _ IH].
  - apply mount_fetches_first_page.
  - now apply handle_keeps_at_rest.
Qed.

(** A refresh sends the request for the current page again. *)
Lemma refresh_fetches_current_page (h : Hooks) (dep : Js.value) :
  fetchImages_dep h = Some dep ->
  Js.same_value dep (currentPage (cells h)) = true ->
  effect_dep h = Some (fetchImages_id h) ->
  snd (handle ClickRefresh h) = [gallery_request dep].
Proof.
  intros Hdep Hsame Heff. cbn [handle]. unfold call_fetchImages.
  rewrite (rerender_mounted
             (with_cells h (run fetchImages_begin (cells h))) dep Hdep Heff).
  cbn [with_cells cells]. rewrite run_fetchImages_begin.
  cbn [currentPage]. rewrite Hsame. unfold captured_page.
  now rewrite Hdep.
Qed.

(** ** Fetching *)


(** C2.  A rejected request ends with the fixed fetch-failed message,
    loading off and the page cells as before, but [images] is left as it
    was, where the claim has it emptied: images on display stay on
    display. *)
Theorem C2_transport_failure_keeps_items (st : State) :
  let st' := run (fetchImages Rejected) st in
  images st' = images st /\
  error st' = Some "Failed to load images. Please try again later." /\
  isLoading st' = false /\
  currentPage st' = currentPage st /\
  totalPages st' = totalPages st /\
  images (run (fetchImages Rejected) showing_first_page) = [img1; img2].
Proof.
  cbv zeta. rewrite !rejected_fetch_state.
  cbn [images currentPage totalPages isLoading error showing_first_page].
  repeat split.
Qed.

(** C3.  A response whose body is [null] has no [images] container, yet
    the attempt does not end in the invalid-data state the claim has:
    reading [data.images] throws, the [catch] handles it as a failed
    fetch, and the images on display stay. *)
Theorem C3_null_body_ends_as_fetch_failure (st : State) :
  let st' := run (fetchImages (Fulfilled Js.Null)) st in
  (forall rows, ~ valid_shape Js.Null rows) /\
  error st' = Some "Failed to load images. Please try again later." /\
  images st' = images st /\
  isLoading st' = false /\
  images (run (fetchImages (Fulfilled Js.Null)) showing_first_page)
  = [img1; img2].
Proof.
  cbv zeta. split.
  - intros rows (container & ref & Hc & _). discriminate.
  - rewrite !run_fetchImages,
      !(settle_thrown _ Js.Null Js.TypeError eq_refl).
    cbn [images isLoading error showing_first_page run fetchImages_begin].
    repeat split.
Qed.

(** ** Pages and what is shown *)


(** C5, amended.  The render shows the "no images available" indicator
    exactly when [images] is empty, whether or not an error is set; and in
    every state whose [currentPage] and [totalPages] are integers with
    1 <= currentPage <= totalPages, Previous is actionable exactly when
    currentPage > 1 and not loading, and Next exactly when
    currentPage < totalPages and not loading. *)
Theorem C5_render_indicators (st : State) :
  (no_images_shown (Gallery st) = true <-> images st = []) /\
  (forall p t : Z,
     currentPage st = Js.int p -> totalPages st = Js.int t ->
     (1 <= p <= t)%Z ->
     (previous_actionable (Gallery st) = true <->
        (1 < p)%Z /\ isLoading st = false) /\
     (next_actionable (Gallery st) = true <->
        (p < t)%Z /\ isLoading st = false)).
Proof.
  split; [apply no_images_shown_iff|].
  intros p t Hp Ht Hrange.
  rewrite previous_actionable_eq, next_actionable_eq, Hp, Ht, !strict_eq_int.
  rewrite !andb_true_iff, !negb_true_iff, !Z.eqb_neq.
  repeat split; intuition lia.
Qed.


(** ** Fetches caused by navigation *)

(** C7.  On a component at rest, a click on Previous or Next that changes
    [currentPage] sends exactly one request, for the new page, and leaves
    the component loading with the error cleared; a click that leaves
    [currentPage] the same value sends none.  The component is at rest
    again afterwards. *)
Theorem C7_navigation_fetches_once_on_change (h : Hooks) (ev : event) :
  at_rest h ->
  ev = ClickPrevious \/ ev = ClickNext ->
  let page := currentPage (cells h) in
  let h' := fst (handle ev h) in
  let sent := snd (handle ev h) in
  let page' := currentPage (cells h') in
  (Js.same_value page page' = false ->
     sent = [gallery_request page'] /\
     isLoading (cells h') = true /\ error (cells h') = None) /\
  (Js.same_value page page' = true ->
     sent = [] /\ isLoading (cells h') = isLoading (cells h)) /\
  at_rest h'.
Proof.
  intros ((dep & Hdep & Hsame) & Heff) Hev.
  assert (Hgen : forall st1,
            isLoading st1 = isLoading (cells h) ->
            let h' := fst (rerender (with_cells h st1)) in
            let sent := snd (rerender (with_cells h st1)) in
            let page' := currentPage (cells h') in
            (Js.same_value (currentPage (cells h)) page' = false ->
               sent = [gallery_request page'] /\
               isLoading (cells h') = true /\ error (cells h') = None) /\
            (Js.same_value (currentPage (cells h)) page' = true ->
               sent = [] /\ isLoading (cells h') = isLoading (cells h)) /\
            at_rest h').
  { intros st1 Hload.
    rewrite (rerender_mounted (with_cells h st1) dep Hdep Heff).
    cbn [with_cells cells fetchImages_id].
    rewrite (same_value_subst _ _ (currentPage st1) Hsame).
    destruct (Js.same_value (currentPage (cells h)) (currentPage st1))
      eqn:Hchg; cbv zeta; unfold at_rest;
      cbn [fst snd with_cells cells fetchImages_dep fetchImages_id
           effect_dep].
    - rewrite Hchg. split; [discriminate|]. split; [now split|].
      split; [|exact Heff].
      exists dep. split; [exact Hdep|].
      now rewrite (same_value_subst _ _ (currentPage st1) Hsame).
    - rewrite run_fetchImages_begin. cbn [currentPage isLoading error].
      rewrite Hchg. split; [now repeat split|]. split; [discriminate|].
      split; [|reflexivity].
      exists (currentPage st1). split; [reflexivity|].
      apply same_value_refl. }
  destruct Hev as [-> | ->]; cbn [handle]; now apply Hgen.
Qed.

(** ** What the validator checks *)


(** ** The username sanitizer *)

(** C9.  [parseUsername] is a total function that returns "Unknown User"
    for every input that is not a string, and for a string strips the
    leading run of double quotes, single quotes and opening braces and the
    trailing run of closing braces, double quotes and single quotes,
    returning "Unknown User" if nothing is left and what is left otherwise;
    the brace-and-quote wrapped, the single-quoted and the brace-wrapped
    alice all give alice, and the empty pair of braces gives
    "Unknown User". *)
Theorem C9_parseUsername_sanitizes :
  (forall v : Js.value,
     parseUsername v =
     match v with
     | Js.Str s =>
         match strip_trailing trailing_class
                 (strip_leading leading_class s) with
         | EmptyString => "Unknown User"
         | stripped => stripped
         end
     | _ => "Unknown User"
     end) /\
  parseUsername (Js.Str ("{" ++ quoted "alice" ++ "}")) = "alice" /\
  parseUsername (Js.Str "'alice'") = "alice" /\
  parseUsername (Js.Str "{alice}") = "alice" /\
  parseUsername (Js.Str "{}") = "Unknown User".
Proof.
  split; [|repeat split; reflexivity].
  intros v. rewrite parseUsername_sanitize. reflexivity.
Qed.

(** C10.  [parseUsername] is idempotent and never returns the empty
    string: its result is the placeholder "Unknown User", or a name whose
    first character is none of the double quote, the single quote and the
    opening brace and whose last character is none of the closing brace,
    the double quote and the single quote. *)
Theorem C10_parseUsername_idempotent (x : Js.value) :
  parseUsername (Js.Str (parseUsername x)) = parseUsername x /\
  parseUsername x <> "" /\
  (parseUsername x = "Unknown User" \/
   exists a z,
     first_char (parseUsername x) = Some a /\
     RegExp.in_class a leading_class = false /\
     last_char (parseUsername x) = Some z /\
     RegExp.in_class z trailing_class = false).
Proof.
  rewrite !parseUsername_sanitize.
  destruct x as [| | b | n | s | ref elems | ref props]; cbn [sanitize_spec];
    try (split; [reflexivity | split; [discriminate | now left]]).
  set (lead := strip_leading leading_class s).
  destruct (strip_trailing trailing_class lead) as [|c r] eqn:Hs.
  - split; [reflexivity | split; [discriminate | now left]].
  - assert (Hne : strip_trailing trailing_class lead <> "")
      by (rewrite Hs; discriminate).
    pose proof (strip_trailing_first trailing_class lead Hne) as Hfirst.
    destruct (strip_trailing_last trailing_class lead Hne) as (z & Hz & Hzc).
    rewrite Hs in Hfirst, Hz. cbn [first_char] in Hfirst.
    assert (Hc : RegExp.in_class c leading_class = false)
      by (apply (strip_leading_first leading_class s); now symmetry).
    split; [|split; [discriminate | right; now exists c, z]].
    rewrite (strip_leading_fixed leading_class (String c r))
      by (cbn [first_char]; exact Hc).
    rewrite (strip_trailing_fixed trailing_class (String c r))
      by (rewrite Hz; exact Hzc).
    reflexivity.
Qed.

(** ** Further properties of the fetch *)



Lemma valid_body_reads (body : Js.value) (rows : list Js.value) :
  valid_rows body = Js.Normal (Some rows) ->
  exists page total,
    Js.get body "currentPage" = Js.Normal page /\
    calculatedTotalPages body = Js.Normal total.
Proof.
  intros H.
  destruct (valid_rows_inv _ _ H)
    as (ref & props & cref & cprops & rref & -> & Hi & Hr).
  destruct (get_total ref props "currentPage") as (page & Hp).
  destruct (get_total ref props "totalPages") as (declared & Hd).
  destruct (get_total cref cprops "rowCount") as (rowCount & Hrc).
  assert (Hc : Js.get (Js.Object ref props) "images"
               = Js.Normal (Js.Object cref cprops))
    by (cbn [Js.get]; now rewrite Hi).
  exists page. eexists. split; [exact Hp|].
  exact (calculatedTotalPages_eq _ _ _ _ Hc Hrc Hd).
Qed.



(** X3.  The error cell only ever holds null or one of the two fixed
    messages, whatever replies arrive and in whatever order; so the render
    shows the message whenever the cell is set. *)
Theorem error_is_null_or_a_fixed_message (st : State) :
  reachable any_reply st ->
  (error st = None \/
   error st = Some "Received invalid data from server" \/
   error st = Some "Failed to load images. Please try again later.") /\
  error_shown (Gallery st) = error st.
Proof.
  intros Hreach.
  assert (H : error st = None \/
              error st = Some invalid_data_message \/
              error st = Some fetch_failed_message).
  { induction Hreach as [|st st' _ IH Hstep]; [now left|].
    destruct Hstep as [st | st | st | st r _].
    - exact IH.
    - exact IH.
    - now left.
    - destruct r as [body|]; [|right; right; reflexivity].
      destruct (valid_rows body) as [[rows|]|e] eqn:Hv.
      + destruct (valid_body_reads _ _ Hv) as (page & total & Hp & Ht).
        now rewrite (settle_valid _ body rows page total Hv Hp Ht).
      + rewrite (settle_invalid _ body Hv). right; left; reflexivity.
      + rewrite (settle_thrown _ body e Hv). right; right; reflexivity. }
  split; [exact H|].
  unfold Gallery. cbn [error_shown].
  destruct H as [-> | [-> | ->]]; reflexivity.
Qed.


(** ** Further properties of navigation *)








(** X8.  A response that declares neither [totalPages] nor a row count
    leaves NaN as the total; and with NaN as the total, Next is actionable
    on every page when not loading, and a click on it makes the page NaN. *)
Theorem missing_counts_give_NaN_total
    (st : State) (body : Js.value) (rows : list Js.value)
    (container : Js.value) :
  valid_shape body rows ->
  Js.get body "images" = Js.Normal container ->
  Js.get container "rowCount" = Js.Normal Js.Undefined ->
  Js.get body "totalPages" = Js.Normal Js.Undefined ->
  let st' := run (fetchImages (Fulfilled body)) st in
  totalPages st' = Js.Number Js.NaN /\
  next_actionable (Gallery st') = true /\
  currentPage (run goToNextPage st') = Js.Number Js.NaN.
Proof.
  intros Hshape Hc Hr Hd st'.
  apply valid_rows_iff_shape in Hshape.
  destruct (valid_body_reads _ _ Hshape) as (page & total & Hp & _).
  assert (Hst : st' = mkState rows page (Js.Number Js.NaN) false None).
  { subst st'. rewrite run_fetchImages.
    now rewrite (settle_valid _ body rows page _ Hshape Hp
                   (calculatedTotalPages_eq _ _ _ _ Hc Hr Hd)). }
  rewrite Hst. split; [reflexivity|]. split.
  - rewrite next_actionable_eq. cbn [currentPage totalPages isLoading].
    destruct page as [| | b | [| | |q] | s | ref elems | ref props];
      reflexivity.
  - rewrite run_goToNextPage. cbn [currentPage totalPages].
    unfold next, Js.Math_min, Js.num_min. rewrite ToNumber_Number.
    cbn [Js.is_NaN]. now rewrite orb_true_r.
Qed.

(** ** Further properties of the requests sent *)


(** What the render after an event sends and leaves in the cells, for a
    component that was at rest before the event wrote [st1]. *)
Lemma rerender_after_event (h : Hooks) (st1 : State) :
  at_rest h ->
  rerender (with_cells h st1) =
  if Js.same_value (currentPage (cells h)) (currentPage st1)
  then (with_cells h st1, [])
  else
    (mkHooks (run fetchImages_begin st1) (Some (currentPage st1))
             (S (fetchImages_id h)) (Some (S (fetchImages_id h))),
     [gallery_request (currentPage st1)]).
Proof.
  intros ((dep & Hdep & Hsame) & Heff).
  rewrite (rerender_mounted (with_cells h st1) dep Hdep Heff).
  cbn [with_cells cells fetchImages_id].
  now rewrite (same_value_subst _ _ (currentPage st1) Hsame).
Qed.


(** X10.  Whatever the event (mount, refresh, a navigation click, a fetch
    settling), a component at rest sends at most one request, and the
    request it sends is for the page in [currentPage] after the event; it
    leaves the component loading with the error cleared. *)
Theorem requests_follow_the_page (ev : event) (h : Hooks) :
  at_rest h ->
  let h' := fst (handle ev h) in
  let sent := snd (handle ev h) in
  sent = [] \/
  exists page,
    sent = [gallery_request page] /\
    Js.same_value page (currentPage (cells h')) = true /\
    isLoading (cells h') = true /\
    error (cells h') = None.
Proof.
  intros Hrest.
  assert (Hgen : forall st1,
            snd (rerender (with_cells h st1)) = [] \/
            exists page,
              snd (rerender (with_cells h st1)) = [gallery_request page] /\
              Js.same_value page
                (currentPage (cells (fst (rerender (with_cells h st1)))))
              = true /\
              isLoading (cells (fst (rerender (with_cells h st1)))) = true /\
              error (cells (fst (rerender (with_cells h st1)))) = None).
  { intros st1. rewrite (rerender_after_event h st1 Hrest).
    destruct (Js.same_value (currentPage (cells h)) (currentPage st1));
      [now left | right].
    exists (currentPage st1). cbn [fst snd cells].
    rewrite run_fetchImages_begin. cbn [currentPage isLoading error].
    split; [reflexivity|]. split; [apply same_value_refl | now split]. }
  destruct Hrest as ((dep & Hdep & Hsame) & Heff).
  destruct ev; cbv zeta; cbn [handle]; try apply Hgen.
  - left. rewrite (rerender_mounted h dep Hdep Heff). now rewrite Hsame.
  - right. exists dep. unfold call_fetchImages.
    rewrite (rerender_mounted
               (with_cells h (run fetchImages_begin (cells h)))
               dep Hdep Heff).
    cbn [with_cells cells]. rewrite run_fetchImages_begin.
    cbn [currentPage]. rewrite Hsame. cbn [fst snd cells app].
    cbn [currentPage isLoading error]. unfold captured_page. rewrite Hdep.
    now repeat split.
Qed.

(** X11.  No retry: when a fetch fails (the request is rejected, or the
    body does not have the valid shape), a component at rest sends no new
    request; it stops loading, shows an error, and stays on its page. *)
Theorem failed_fetch_is_not_retried (h : Hooks) (r : reply) :
  at_rest h ->
  (forall body rows, r = Fulfilled body -> ~ valid_shape body rows) ->
  let h' := fst (handle (Settled r) h) in
  snd (handle (Settled r) h) = [] /\
  isLoading (cells h') = false /\
  error (cells h') <> None /\
  currentPage (cells h') = currentPage (cells h) /\
  totalPages (cells h') = totalPages (cells h).
Proof.
  intros Hrest Hbad. cbv zeta. cbn [handle].
  rewrite (rerender_after_event h _ Hrest).
  assert (Hst : exists imgs msg,
            run (fetchImages_settle r) (cells h) =
            mkState imgs (currentPage (cells h)) (totalPages (cells h))
                    false (Some msg)).
  { destruct r as [body|].
    - destruct (valid_rows body) as [[rows|]|e] eqn:Hv.
      + exfalso. apply (Hbad body rows eq_refl).
        now apply valid_rows_iff_shape.
      + rewrite (settle_invalid _ body Hv). eauto.
      + rewrite (settle_thrown _ body e Hv). eauto.
    - rewrite settle_rejected. eauto. }
  destruct Hst as (imgs & msg & ->). cbn [currentPage].
  rewrite same_value_refl. cbn [fst snd with_cells cells].
  cbn [currentPage totalPages isLoading error].
  repeat split. discriminate.
Qed.


(** X13.  Refresh: on a component at rest, a click on the refresh button
    sends exactly one request, for the page on display, whether or not
    anything changed; the images and the pages stay, loading turns on and
    the error is cleared. *)
Theorem refresh_fetches_the_page_on_display (h : Hooks) :
  at_rest h ->
  let h' := fst (handle ClickRefresh h) in
  (exists page,
     snd (handle ClickRefresh h) = [gallery_request page] /\
     Js.same_value page (currentPage (cells h)) = true) /\
  cells h' =
    mkState (images (cells h)) (currentPage (cells h)) (totalPages (cells h))
            true None.
Proof.
  intros ((dep & Hdep & Hsame) & Heff). cbv zeta. cbn [handle].
  unfold call_fetchImages.
  rewrite (rerender_mounted
             (with_cells h (run fetchImages_begin (cells h))) dep Hdep Heff).
  cbn [with_cells cells]. rewrite run_fetchImages_begin.
  cbn [currentPage]. rewrite Hsame. cbn [fst snd cells app].
  unfold captured_page. rewrite Hdep.
  split; [|reflexivity]. now exists dep.
Qed.

(** X14.  Mounting sends exactly one request, for page 1; and in every
    state the mounted component goes through, whatever the events, the
    memoised [fetchImages] closes over the page in [currentPage] and the
    effect has run for it. *)
Theorem mounted_component_is_at_rest (h : Hooks) :
  running h ->
  snd (handle Mount unmounted) = [gallery_request (Js.int 1)] /\
  (exists dep,
     fetchImages_dep h = Some dep /\
     captured_page h = dep /\
     Js.same_value dep (currentPage (cells h)) = true) /\
  effect_dep h = Some (fetchImages_id h).
Proof.
  intros Hrun. split; [apply mount_fetches_first_page|].
  destruct (running_at_rest h Hrun) as ((dep & Hdep & Hsame) & Heff).
  split; [|exact Heff].
  exists dep. unfold captured_page. rewrite Hdep. now repeat split.
Qed.

(** ** Further properties of the username sanitizer *)

Lemma strip_leading_split (cls : list ascii) (s : string) :
  exists pre,
    s = pre ++ strip_leading cls s /\ all_in_class cls pre = true.
Proof.
  induction s as [|c s (pre & Hs & Hpre)]; [now exists ""|].
  cbn [strip_leading].
  destruct (RegExp.in_class c cls) eqn:Hc.
  - exists (String c pre). cbn [append all_in_class].
    rewrite Hc, Hpre. split; [now f_equal | reflexivity].
  - now exists "".
Qed.

Lemma strip_trailing_split (cls : list ascii) (s : string) :
  exists post,
    s = strip_trailing cls s ++ post /\ all_in_class cls post = true.
Proof.
  induction s as [|c s (post & Hs & Hpost)]; [now exists ""|].
  cbn [strip_trailing].
  destruct (strip_trailing cls s) as [|a r] eqn:Hstrip.
  - cbn [append] in Hs. subst post.
    destruct (RegExp.in_class c cls) eqn:Hc.
    + exists (String c s). cbn [append all_in_class].
      now rewrite Hc, Hpost.
    + exists s. now split.
  - exists post. cbn [append] in *. split; [now f_equal | exact Hpost].
Qed.


(** X15.  [parseUsername] only removes characters at the two ends: every
    string splits into a prefix of quotes and opening braces, a middle,
    and a suffix of closing braces and quotes, and the result is the
    middle, or "Unknown User" when the middle is empty.  Nothing inside
    the name is touched. *)
Theorem parseUsername_strips_only_the_ends (s : string) :
  exists pre mid post,
    s = pre ++ mid ++ post /\
    all_in_class leading_class pre = true /\
    all_in_class trailing_class post = true /\
    parseUsername (Js.Str s) =
      match mid with
      | EmptyString => "Unknown User"
      | _ => mid
      end.
Proof.
  destruct (strip_leading_split leading_class s) as (pre & Hs & Hpre).
  destruct (strip_trailing_split trailing_class
              (strip_leading leading_class s)) as (post & Hm & Hpost).
  exists pre,
    (strip_trailing trailing_class (strip_leading leading_class s)), post.
  split; [now rewrite <- Hm|]. split; [exact Hpre|]. split; [exact Hpost|].
  rewrite parseUsername_sanitize. cbn [sanitize_spec].
  now destruct (strip_trailing trailing_class (strip_leading leading_class s)).
Qed.

(** X16.  A name that neither starts with a quote or an opening brace nor
    ends with a closing brace or a quote comes out unchanged, whatever it
    holds in between. *)
Theorem clean_username_is_kept (s : string) (a z : ascii) :
  first_char s = Some a ->
  RegExp.in_class a leading_class = false ->
  last_char s = Some z ->
  RegExp.in_class z trailing_class = false ->
  parseUsername (Js.Str s) = s.
Proof.
  intros Ha Hac Hz Hzc.
  rewrite parseUsername_sanitize. cbn [sanitize_spec].
  rewrite (strip_leading_fixed leading_class s) by now rewrite Ha.
  rewrite (strip_trailing_fixed trailing_class s) by now rewrite Hz.
  destruct s; [discriminate Ha | reflexivity].
Qed.

(** ** Properties of the grid and its items *)






End GalleryComponent.

(** ** The theorems at sample inputs *)

#[local] Existing Instance sample_engine.







Lemma C5_render_indicators_witness :
  (1 <= 1 <= 3)%Z /\
  (previous_actionable (Gallery showing_first_page) = true <->
     (1 < 1)%Z /\ isLoading showing_first_page = false) /\
  (next_actionable (Gallery showing_first_page) = true <->
     (1 < 3)%Z /\ isLoading showing_first_page = false).
Proof.
  split; [lia|].
  apply (proj2 (C5_render_indicators showing_first_page) 1%Z 3%Z);
    [reflexivity | reflexivity | lia].
Defined.

(** C5 as stated fails in the state an invalid body leaves behind: the
    "no images available" indicator is shown although an error is set. *)
Lemma C5_error_state_counterexample :
  ~ renders_as_specified invalid_data_state.
Proof.
  intros (Hnone & _ & _).
  destruct (proj1 Hnone eq_refl) as (_ & Herr). discriminate Herr.
Qed.

(** That state is the one a body without [images] leaves on the first
    page. *)
Lemma invalid_data_state_arises :
  run (fetchImages (Fulfilled (Js.Str "<!doctype html>"))) showing_first_page
  = invalid_data_state.
Proof. reflexivity. Qed.

(** It fails as well below page 1: Previous is actionable on page 0. *)
Lemma previous_actionable_on_page_zero :
  previous_actionable (Gallery page_zero_state) = true /\
  Js.gt_number (currentPage page_zero_state) (Js.of_Z 1)
  = false.
Proof. split; reflexivity. Qed.


Lemma on_second_page_at_rest : at_rest on_second_page.
Proof.
  split; [|reflexivity].
  exists (Js.int 2). split; reflexivity.
Defined.


(** On page 2 of 3 a click on Next sends one request, for page 3. *)
Lemma C7_navigation_fetches_once_on_change_witness :
  at_rest on_second_page /\
  snd (handle None ClickNext on_second_page) =
  [{| url := "http://localhost:4000/gallery?page=3";
      withCredentials := true |}].
Proof.
  split; [exact on_second_page_at_rest|].
  destruct (C7_navigation_fetches_once_on_change None
              on_second_page ClickNext on_second_page_at_rest
              (or_intror eq_refl)) as (Hchanged & _ & _).
  destruct (Hchanged eq_refl) as (Hsent & _).
  exact Hsent.
Defined.

(** On page 1 a click on Previous sends nothing. *)
Lemma previous_on_first_page_sends_nothing :
  handle None ClickPrevious on_first_page =
  (on_first_page, []).
Proof. reflexivity. Qed.





(** ** Scenarios *)

(** Mounting, then page 1 arriving with two images on one page: two items
    are shown and both pagination buttons are disabled. *)
Example single_page_scenario :
  let h1 := fst (handle None Mount unmounted) in
  let h2 := fst (handle None (Settled (Fulfilled single_page_body)) h1) in
  snd (handle None Mount unmounted) =
    [{| url := "http://localhost:4000/gallery?page=1";
        withCredentials := true |}] /\
  snd (handle None (Settled (Fulfilled single_page_body)) h1) = [] /\
  content (Gallery (cells h2)) = ImageGrid [img1; img2] /\
  previous_disabled (pagination (Gallery (cells h2))) = true /\
  next_disabled (pagination (Gallery (cells h2))) = true.
Proof. repeat split. Qed.

(** On page 2 of 3, a click on Next: while the request for page 3 is
    pending the component is loading and both buttons are disabled. *)
Example next_page_scenario :
  let h := fst (handle None ClickNext on_second_page) in
  isLoading (cells h) = true /\
  previous_disabled (pagination (Gallery (cells h))) = true /\
  next_disabled (pagination (Gallery (cells h))) = true.
Proof. repeat split. Qed.

(** ** The further properties at sample inputs *)


Lemma rejected_first_fetch_reachable :
  reachable any_reply (run (fetchImages Rejected) initial).
Proof.
  apply (reachable_step any_reply (run fetchImages_begin initial)).
  - apply (reachable_step any_reply initial); [apply reachable_initial|].
    exact (step_begin any_reply initial).
  - exact (step_settle any_reply (run fetchImages_begin initial) Rejected I).
Defined.

Lemma error_is_null_or_a_fixed_message_witness :
  error_shown (Gallery (run (fetchImages Rejected) initial)) =
  error (run (fetchImages Rejected) initial).
Proof.
  exact (proj2 (error_is_null_or_a_fixed_message _
                  rejected_first_fetch_reachable)).
Defined.





Lemma countless_body_shape : valid_shape countless_body [img1].
Proof.
  exists (Js.Object 2 [("rows", Js.Array 3 [img1])]), 3%nat.
  split; reflexivity.
Defined.

Lemma missing_counts_give_NaN_total_witness :
  totalPages (run (fetchImages (Fulfilled countless_body)) initial)
  = Js.Number Js.NaN.
Proof.
  pose proof (missing_counts_give_NaN_total initial countless_body [img1] _
                countless_body_shape eq_refl eq_refl eq_refl) as H.
  cbv zeta in H. exact (proj1 H).
Defined.


Lemma requests_follow_the_page_witness :
  snd (handle None ClickNext on_second_page) = [] \/
  exists page,
    snd (handle None ClickNext on_second_page) = [gallery_request None page] /\
    Js.same_value page
      (currentPage (cells (fst (handle None ClickNext on_second_page))))
    = true /\
    isLoading (cells (fst (handle None ClickNext on_second_page))) = true /\
    error (cells (fst (handle None ClickNext on_second_page))) = None.
Proof.
  exact (requests_follow_the_page None ClickNext on_second_page
           on_second_page_at_rest).
Defined.

Lemma failed_fetch_is_not_retried_witness :
  snd (handle None (Settled Rejected) on_second_page) = [].
Proof.
  pose proof (failed_fetch_is_not_retried None on_second_page Rejected
                on_second_page_at_rest) as H.
  cbv zeta in H. apply H.
  intros body rows Heq. discriminate Heq.
Defined.


Lemma refresh_fetches_the_page_on_display_witness :
  cells (fst (handle None ClickRefresh on_second_page)) =
  mkState [img1; img2] (Js.int 2) (Js.int 3) true None.
Proof.
  pose proof (refresh_fetches_the_page_on_display None on_second_page
                on_second_page_at_rest) as H.
  cbv zeta in H. exact (proj2 H).
Defined.

Lemma mounted_component_is_at_rest_witness :
  effect_dep (fst (handle None Mount unmounted)) =
  Some (fetchImages_id (fst (handle None Mount unmounted))).
Proof.
  exact (proj2 (proj2 (mounted_component_is_at_rest None _
                         (running_mounted None)))).
Defined.

Lemma clean_username_is_kept_witness :
  parseUsername (Js.Str "O'Brien") = "O'Brien".
Proof.
  apply (clean_username_is_kept "O'Brien" "O"%char "n"%char);
    reflexivity.
Defined.



